(** * propolis-graph: scripts/testdata.py

    A shallow embedding of the export script [scripts/testdata.py] and the
    proofs of its record-to-statement transformation: the four query-and-print
    loops, the body escaping chain and the order of the emitted statements.

    Python values are modelled by [value]: [None], [int], [str], and any
    other object the database driver delivers (a date, a decimal, bytes),
    known by what the script can observe of it.  A [str] is a Rocq [string],
    one [ascii] per character (replacing the ASCII characters the script
    replaces commutes with the UTF-8 encoding of any other character).
    The script's module-level variables and its standard output are threaded
    through a state-and-exception monad [M]; an uncaught exception aborts
    the run and keeps what was printed before it. *)

From Stdlib Require Import ZArith List Bool Ascii String Lia.
From Stdlib Require Import Numbers.DecimalString.
Import ListNotations.

Open Scope string_scope.

(** ** Characters the script names *)

Definition LF : ascii := "010"%char.
Definition TAB : ascii := "009"%char.
Definition SQUOTE : ascii := "'"%char.
Definition DQUOTE : ascii := "034"%char.
Definition BACKSLASH : ascii := "\"%char.

Definition char (c : ascii) : string := String c EmptyString.

(** ** Python string literals

    [unescape src] is the value of the (non-raw) string literal whose source
    text between the quotes is [src].  The one-character escapes of the
    language are decoded; a backslash before any other character stays in
    the string together with that character.  The octal, hexadecimal and
    named forms are not decoded: the script has none. *)

Definition escape_char (c : ascii) : option ascii :=
  if Ascii.eqb c "\" then Some BACKSLASH
  else if Ascii.eqb c "'" then Some SQUOTE
  else if Ascii.eqb c DQUOTE then Some DQUOTE
  else if Ascii.eqb c "a" then Some "007"%char
  else if Ascii.eqb c "b" then Some "008"%char
  else if Ascii.eqb c "f" then Some "012"%char
  else if Ascii.eqb c "n" then Some LF
  else if Ascii.eqb c "r" then Some "013"%char
  else if Ascii.eqb c "t" then Some TAB
  else if Ascii.eqb c "v" then Some "011"%char
  else None.

Fixpoint unescape (src : string) : string :=
  match src with
  | EmptyString => EmptyString
  | String c rest =>
      if Ascii.eqb c BACKSLASH then
        match rest with
        | EmptyString => String c EmptyString
        | String e rest' =>
            match escape_char e with
            | Some d => String d (unescape rest')
            | None => String c (String e (unescape rest'))
            end
        end
      else String c (unescape rest)
  end.

(** ** Values, rows and exceptions

    [VOther text has_replace] is an object of another type: [text] is its
    [str()], and [has_replace] tells whether it has an attribute [replace]
    (a datetime and bytes have one, which refuses [str] arguments; a
    decimal has none).  Adding it to a [str] is a type error. *)

Inductive value : Type :=
  | VNone
  | VInt (z : Z)
  | VStr (s : string)
  | VOther (text : string) (has_replace : bool).

(** A fetched row is a tuple of column values. *)
Definition row : Type := list value.

Inductive exc : Type :=
  | TypeError
  | AttributeError
  | IndexError
  | NameError
  | SyntaxError.

(** [str(v)], which is also [format(v, '')]: what a replacement field
    [{v}] of an f-string and [print] write. *)
Definition pystr (v : value) : string :=
  match v with
  | VNone => "None"
  | VInt z => NilZero.string_of_int (Z.to_int z)
  | VStr s => s
  | VOther text _ => text
  end.

(** ** [str.replace(old, new)]

    Occurrences of [old] are found left to right without overlap; [skip]
    counts the characters of a matched occurrence still to be dropped.  An
    empty [old] matches before every character and at the end. *)

Fixpoint replace_from (old new : string) (skip : nat) (s : string) : string :=
  match s with
  | EmptyString =>
      match old with
      | EmptyString => new
      | String _ _ => EmptyString
      end
  | String c s' =>
      match skip with
      | S k => replace_from old new k s'
      | O =>
          if prefix old s then
            match old with
            | EmptyString => new ++ String c (replace_from old new 0 s')
            | String _ old' => new ++ replace_from old new (length old') s'
            end
          else String c (replace_from old new 0 s')
      end
  end.

Definition replace (old new s : string) : string := replace_from old new 0 s.

(** ** The state-and-exception monad *)

Record state : Type := mkState {
  globals : list (string * value);
  stdout : string
}.

Definition M (A : Type) : Type := state -> (exc + A) * state.

Definition ret {A} (a : A) : M A := fun st => (inr a, st).

Definition raise {A} (e : exc) : M A := fun st => (inl e, st).

Definition bind {A B} (m : M A) (k : A -> M B) : M B :=
  fun st =>
    match m st with
    | (inr a, st') => k a st'
    | (inl e, st') => (inl e, st')
    end.

Declare Scope py_scope.
Delimit Scope py_scope with py.
Notation "x <- m ;; k" := (bind m (fun x => k))
  (at level 61, m at next level, right associativity) : py_scope.
Notation "m ;; k" := (bind m (fun _ => k))
  (at level 61, right associativity) : py_scope.
Open Scope py_scope.

(** ** Expressions *)

Fixpoint lookup (x : string) (g : list (string * value)) : option value :=
  match g with
  | [] => None
  | (y, v) :: g' => if String.eqb x y then Some v else lookup x g'
  end.

(** A name: the module-level variable [x]. *)
Definition var (x : string) : M value :=
  fun st =>
    match lookup x (globals st) with
    | Some v => (inr v, st)
    | None => (inl NameError, st)
    end.

(** A string literal, given by its source text. *)
Definition lit (src : string) : M value := ret (VStr (unescape src)).

(** [r[i]] on a tuple, for the non-negative indices of the script. *)
Definition subscript (r : row) (i : nat) : M value :=
  match nth_error r i with
  | Some v => ret v
  | None => raise IndexError
  end.

(** [a + b] *)
Definition add_values (a b : value) : M value :=
  match a, b with
  | VStr s, VStr t => ret (VStr (s ++ t))
  | VInt m, VInt n => ret (VInt (m + n))
  | _, _ => raise TypeError
  end.

Definition add (ea eb : M value) : M value :=
  a <- ea ;; b <- eb ;; add_values a b.

(** [e.replace(old, new)]: the attribute is looked up first, then the
    arguments are evaluated, then the method is called. *)
Definition call_replace (e eold enew : M value) : M value :=
  v <- e ;;
  match v with
  | VStr s =>
      o <- eold ;; n <- enew ;;
      match o, n with
      | VStr old, VStr new => ret (VStr (replace old new s))
      | _, _ => raise TypeError
      end
  | VOther _ true => _ <- eold ;; _ <- enew ;; raise TypeError
  | VOther _ false | VNone | VInt _ => raise AttributeError
  end.

(** ** f-strings

    The template is the source text between the quotes.  [{{] and [}}] stand
    for one brace; [{name}] is the replacement field of the variable [name]
    (the only kind of field in the script), rendered with [pystr]. *)

Inductive part : Type :=
  | Text (c : ascii)
  | Field (name : string).

Fixpoint parse_fstring (field : option string) (tpl : string) : option (list part) :=
  match tpl with
  | EmptyString =>
      match field with
      | None => Some []
      | Some _ => None
      end
  | String c rest =>
      match field with
      | Some name =>
          if Ascii.eqb c "}" then
            option_map (cons (Field name)) (parse_fstring None rest)
          else parse_fstring (Some (name ++ char c)) rest
      | None =>
          if Ascii.eqb c "{" then
            match rest with
            | String "{"%char rest' =>
                option_map (cons (Text "{")) (parse_fstring None rest')
            | _ => parse_fstring (Some EmptyString) rest
            end
          else if Ascii.eqb c "}" then
            match rest with
            | String "}"%char rest' =>
                option_map (cons (Text "}")) (parse_fstring None rest')
            | _ => None
            end
          else option_map (cons (Text c)) (parse_fstring None rest)
      end
  end.

Fixpoint render (ps : list part) : M string :=
  match ps with
  | [] => ret EmptyString
  | Text c :: ps' => s <- render ps' ;; ret (String c s)
  | Field x :: ps' => v <- var x ;; s <- render ps' ;; ret (pystr v ++ s)
  end.

Definition fstring (tpl : string) : M value :=
  match parse_fstring None (unescape tpl) with
  | Some ps => s <- render ps ;; ret (VStr s)
  | None => raise SyntaxError
  end.

(** ** Statements *)

(** [x = e] *)
Definition assign (x : string) (e : M value) : M unit :=
  v <- e ;;
  fun st => (inr tt, mkState ((x, v) :: globals st) (stdout st)).

(** [print(e)] writes [str] of the value and a newline. *)
Definition print (e : M value) : M unit :=
  v <- e ;;
  fun st => (inr tt, mkState (globals st) (stdout st ++ pystr v ++ char LF)).

(** [for row in res: body] *)
Fixpoint for_each (res : list row) (body : row -> M unit) : M unit :=
  match res with
  | [] => ret tt
  | r :: res' => body r ;; for_each res' body
  end.

Notation "x ::= e" := (assign x e) (at level 60, no associativity) : py_scope.
Notation "r @[ i ]" := (subscript r i) (at level 1, format "r @[ i ]") : py_scope.

(** ** The script

    [db q] is what [curs.execute(q)] followed by [curs.fetchall()] returns:
    the rows of the query [q], in the order the database delivers them.
    Connecting and creating cursors print nothing and bind no variable the
    loops read; [users = {}] is never used. *)

(** The escaping chain of both body loops: four [replace] calls on [val],
    each argument a string literal given here by its source text (the text
    between the quotes); the double quote of the last step is written
    [char DQUOTE]. *)
Definition escaped (e : M value) : M value :=
  call_replace
    (call_replace
       (call_replace
          (call_replace e (lit "\n") (lit "\\n"))
          (lit "\t") (lit "\\t"))
       (lit "'") (lit "\'"))
    (lit ("\" ++ char DQUOTE)) (lit ("\\\" ++ char DQUOTE)).

Definition tag_stmts (row : row) : M unit :=
  "id" ::= row@[0] ;;
  "val" ::= row@[1] ;;
  print (fstring "MERGE (:Tag{{extId='{id}', value='{val}'}})").

Definition identity_stmts (row : row) : M unit :=
  "id" ::= row@[0] ;;
  "email" ::= row@[1] ;;
  "handle" ::= row@[2] ;;
  print (fstring "MERGE (:Identity:User{{extId='{id}', email='{email}', handle='{handle}'}})").

(** The assignments of the discussion loop before the escaping. *)
Definition discussion_fields (row : row) : M unit :=
  "id" ::= row@[0] ;;
  "val" ::= add (add row@[1] (lit "\n\n")) row@[2] ;;
  "tag_id" ::= row@[3] ;;
  "user_id" ::= row@[4] ;;
  "created_at" ::= row@[5].

Definition discussion_stmts (row : row) : M unit :=
  discussion_fields row ;;
  "val" ::= escaped (var "val") ;;
  print (fstring "MERGE (:Identity:User{{extId='{user_id}'}})-[posted{{created_at:'{created_at}'}}]->(:Post{{extId='{id}', value='{val}'}})-[is_tagged_with]->(:Tag{{extId: '{tag_id}'}})").

Definition post_stmts (row : row) : M unit :=
  "id" ::= row@[0] ;;
  "val" ::= row@[1] ;;
  "user_id" ::= row@[2] ;;
  "created_at" ::= row@[3] ;;
  "in_reply_to_id" ::= row@[4] ;;
  "val" ::= escaped (var "val") ;;
  print (fstring "MERGE (:Identity:User{{extId='{user_id}'}})-[posted{{created_at:'{created_at}'}}]->(:Post{{extId='{id}', inReplyToExtId='{in_reply_to_id}', value='{val}'}})").

Definition tag_query : string := "select id, description from folder".
Definition identity_query : string := "select id, email, username from user limit 10".
Definition discussion_query : string :=
  "select id, title, header, folder_id, user_id, created_date from discussion limit 10".
Definition post_query : string :=
  "select id, text, user_id, created_date, discussion_id from post limit 10".

Definition script (db : string -> list row) : M unit :=
  for_each (db tag_query) tag_stmts ;;
  for_each (db identity_query) identity_stmts ;;
  for_each (db discussion_query) discussion_stmts ;;
  for_each (db post_query) post_stmts.

(** The state the interpreter starts the script in. *)
Definition initial : state := mkState [] EmptyString.

(** ** Observations of a run *)

(** [m] ends normally and has written exactly [text] after what was
    already on the output. *)
Definition prints_text (m : M unit) (text : string) : Prop :=
  forall st, fst (m st) = inr tt /\ stdout (snd (m st)) = stdout st ++ text.

(** [m] ends normally and has written the one line [line]. *)
Definition prints (m : M unit) (line : string) : Prop :=
  prints_text m (line ++ char LF).

(** [m] is aborted by the exception [e] and has written nothing. *)
Definition raises (m : M unit) (e : exc) : Prop :=
  forall st, fst (m st) = inl e /\ stdout (snd (m st)) = stdout st.

(** [m] is aborted by the exception [e] after it has written [text]. *)
Definition aborts_after (m : M unit) (e : exc) (text : string) : Prop :=
  forall st, fst (m st) = inl e /\ stdout (snd (m st)) = stdout st ++ text.

(** The text of a sequence of printed lines. *)
Fixpoint unlines (ls : list string) : string :=
  match ls with
  | [] => EmptyString
  | l :: ls' => (l ++ char LF) ++ unlines ls'
  end.

(** Number of occurrences of the character [c]. *)
Fixpoint count (c : ascii) (s : string) : nat :=
  match s with
  | EmptyString => 0
  | String d s' => (if Ascii.eqb c d then 1 else 0) + count c s'
  end.

(** ** The operations of the specification

    The script has no functions: each operation of the specification is the
    body of one loop, run on the row made of the operation's arguments in
    the column order of the loop's query. *)

Definition formatTag (id value : value) : M unit :=
  tag_stmts [id; value].

Definition formatIdentity (id email handle : value) : M unit :=
  identity_stmts [id; email; handle].

Definition formatDiscussionPost (id title header tagId userId createdAt : value) : M unit :=
  discussion_stmts [id; title; header; tagId; userId; createdAt].

Definition formatPost (id text userId createdAt inReplyToId : value) : M unit :=
  post_stmts [id; text; userId; createdAt; inReplyToId].

(** The value the escaping chain computes from a [str]: the four [replace]
    calls of [escaped], old and new strings being the values of the
    script's literals. *)
Definition escape_body (val : string) : string :=
  replace (unescape ("\" ++ char DQUOTE)) (unescape ("\\\" ++ char DQUOTE))
    (replace (unescape "'") (unescape "\'")
       (replace (unescape "\t") (unescape "\\t")
          (replace (unescape "\n") (unescape "\\n") val))).

(** ** The escaping contract, in the specification's words

    A global literal substitution of one character: every occurrence of [c]
    becomes [new], every other character is kept. *)
Fixpoint substitute (c : ascii) (new : string) (s : string) : string :=
  match s with
  | EmptyString => EmptyString
  | String d s' =>
      if Ascii.eqb d c then new ++ substitute c new s'
      else String d (substitute c new s')
  end.

(** Steps a to d in order; step c writes the single quote as the script's
    literal has it. *)
Definition four_substitutions (body : string) : string :=
  substitute DQUOTE (String BACKSLASH (char DQUOTE))
    (substitute SQUOTE (char SQUOTE)
       (substitute TAB (String BACKSLASH "t")
          (substitute LF (String BACKSLASH "n") body))).

(** What the contract does to one character, and to a text character by
    character. *)
Definition escape_one (c : ascii) : string :=
  if Ascii.eqb c LF then String BACKSLASH "n"
  else if Ascii.eqb c TAB then String BACKSLASH "t"
  else if Ascii.eqb c DQUOTE then String BACKSLASH (char DQUOTE)
  else char c.

Fixpoint escape_each (s : string) : string :=
  match s with
  | EmptyString => EmptyString
  | String c s' => escape_one c ++ escape_each s'
  end.

(** ** Records of the data model

    The rows the statements are specified for: identifiers and timestamps
    are any column value, the free-form bodies are text. *)

Record TagRecord : Type := mkTag {
  tag_extId : value;
  tag_value : value
}.

Record IdentityRecord : Type := mkIdentity {
  identity_extId : value;
  identity_email : value;
  identity_handle : value
}.

Record DiscussionRecord : Type := mkDiscussion {
  discussion_extId : value;
  discussion_title : string;
  discussion_header : string;
  discussion_tagId : value;
  discussion_userId : value;
  discussion_createdAt : value
}.

Record PostRecord : Type := mkPost {
  post_extId : value;
  post_text : string;
  post_userId : value;
  post_createdAt : value;
  post_inReplyToId : value
}.

Definition tag_row (t : TagRecord) : row :=
  [tag_extId t; tag_value t].

Definition identity_row (i : IdentityRecord) : row :=
  [identity_extId i; identity_email i; identity_handle i].

Definition discussion_row (d : DiscussionRecord) : row :=
  [discussion_extId d; VStr (discussion_title d); VStr (discussion_header d);
   discussion_tagId d; discussion_userId d; discussion_createdAt d].

Definition post_row (p : PostRecord) : row :=
  [post_extId p; VStr (post_text p); post_userId p; post_createdAt p;
   post_inReplyToId p].

(** The statement of each record, as section 4 of the specification
    writes the output lines. *)

Definition tag_line (t : TagRecord) : string :=
  "MERGE (:Tag{extId='" ++ pystr (tag_extId t) ++ "', value='"
    ++ pystr (tag_value t) ++ "'})".

Definition identity_line (i : IdentityRecord) : string :=
  "MERGE (:Identity:User{extId='" ++ pystr (identity_extId i) ++ "', email='"
    ++ pystr (identity_email i) ++ "', handle='" ++ pystr (identity_handle i)
    ++ "'})".

Definition discussion_line (d : DiscussionRecord) : string :=
  "MERGE (:Identity:User{extId='" ++ pystr (discussion_userId d)
    ++ "'})-[posted{created_at:'" ++ pystr (discussion_createdAt d)
    ++ "'}]->(:Post{extId='" ++ pystr (discussion_extId d) ++ "', value='"
    ++ four_substitutions
         (discussion_title d ++ char LF ++ char LF ++ discussion_header d)
    ++ "'})-[is_tagged_with]->(:Tag{extId: '" ++ pystr (discussion_tagId d)
    ++ "'})".

Definition post_line (p : PostRecord) : string :=
  "MERGE (:Identity:User{extId='" ++ pystr (post_userId p)
    ++ "'})-[posted{created_at:'" ++ pystr (post_createdAt p)
    ++ "'}]->(:Post{extId='" ++ pystr (post_extId p) ++ "', inReplyToExtId='"
    ++ pystr (post_inReplyToId p) ++ "', value='"
    ++ four_substitutions (post_text p) ++ "'})".

(** ** A small database

    One row of each kind, the post with a line break, a tab and both kinds
    of quote in its text. *)

Definition sample_tags : list TagRecord :=
  [mkTag (VInt 7) (VStr "General")].

Definition sample_identities : list IdentityRecord :=
  [mkIdentity (VInt 3) (VStr "a@b.com") (VStr "alice")].

Definition sample_discussions : list DiscussionRecord :=
  [mkDiscussion (VInt 12) "T" "H" (VInt 7) (VInt 3) (VStr "2024-01-01")].

Definition sample_posts : list PostRecord :=
  [mkPost (VInt 101)
     ("it's" ++ char LF ++ char TAB ++ char DQUOTE ++ "ok" ++ char DQUOTE)
     (VInt 3) (VStr "2024-01-02") (VInt 12)].

Definition sample_db (q : string) : list row :=
  if String.eqb q tag_query then map tag_row sample_tags
  else if String.eqb q identity_query then map identity_row sample_identities
  else if String.eqb q discussion_query then map discussion_row sample_discussions
  else if String.eqb q post_query then map post_row sample_posts
  else [].

(** ** Further observations

    [m] ends with the result [res], the same from every state, and has
    written [text] after what was already on the output. *)
Definition outcome (m : M unit) (res : exc + unit) (text : string) : Prop :=
  forall st, fst (m st) = res /\ stdout (snd (m st)) = stdout st ++ text.

(** The exceptions a run of the script can end with. *)
Definition row_error (res : exc + unit) : Prop :=
  res = inr tt \/ res = inl IndexError \/ res = inl TypeError
  \/ res = inl AttributeError.

Definition is_str (v : value) : bool :=
  match v with
  | VStr _ => true
  | _ => false
  end.

(** Number of double quotes that do not come directly after a backslash;
    [after_backslash] tells whether the character before [s] is one. *)
Fixpoint bare_dquotes (after_backslash : bool) (s : string) : nat :=
  match s with
  | EmptyString => 0
  | String c s' =>
      (if Ascii.eqb c DQUOTE && negb after_backslash then 1 else 0)
      + bare_dquotes (Ascii.eqb c BACKSLASH) s'
  end.

(** A value, and a record, written without a line break outside the
    escaped body. *)
Definition one_line (v : value) : bool := Nat.eqb (count LF (pystr v)) 0.

Definition tag_one_line (t : TagRecord) : bool :=
  one_line (tag_extId t) && one_line (tag_value t).

Definition identity_one_line (i : IdentityRecord) : bool :=
  one_line (identity_extId i) && one_line (identity_email i)
  && one_line (identity_handle i).

Definition discussion_one_line (d : DiscussionRecord) : bool :=
  one_line (discussion_extId d) && one_line (discussion_tagId d)
  && one_line (discussion_userId d) && one_line (discussion_createdAt d).

Definition post_one_line (p : PostRecord) : bool :=
  one_line (post_extId p) && one_line (post_userId p)
  && one_line (post_createdAt p) && one_line (post_inReplyToId p).

(** The small database with a second discussion that has no title and a
    post after it. *)
Definition untitled_row : row :=
  [VInt 13; VNone; VStr "H2"; VInt 7; VInt 3; VStr "2024-01-03"].

Definition untitled_db (q : string) : list row :=
  if String.eqb q discussion_query
  then (map discussion_row sample_discussions ++ untitled_row :: [])%list
  else sample_db q.

(** The small database with a post that has no text, between two posts. *)
Definition textless_row : row :=
  [VInt 102; VNone; VInt 3; VStr "2024-01-04"; VInt 12].

Definition textless_db (q : string) : list row :=
  if String.eqb q post_query
  then (map post_row sample_posts
          ++ textless_row :: map post_row sample_posts)%list
  else sample_db q.

(** A database with several rows in each stream, delivered in an order
    that is not the order of their identifiers. *)

Definition ordered_tags : list TagRecord :=
  [mkTag (VInt 9) (VStr "Zeta"); mkTag (VInt 2) (VStr "Alpha")].

Definition ordered_identities : list IdentityRecord :=
  [mkIdentity (VInt 5) (VStr "b@c.org") (VStr "bob");
   mkIdentity (VInt 3) (VStr "a@b.com") (VStr "alice")].

Definition ordered_discussions : list DiscussionRecord :=
  [mkDiscussion (VInt 20) "Second" "B" (VInt 2) (VInt 5) (VStr "2024-02-01");
   mkDiscussion (VInt 12) "First" "A" (VInt 9) (VInt 3) (VStr "2024-01-01")].

Definition ordered_posts : list PostRecord :=
  [mkPost (VInt 103) "c" (VInt 3) (VStr "2024-02-03") (VInt 20);
   mkPost (VInt 101) ("a" ++ char LF ++ "a") (VInt 5) (VStr "2024-01-02") (VInt 12);
   mkPost (VInt 102) "b" (VInt 3) (VStr "2024-01-03") (VInt 12)].

Definition ordered_db (q : string) : list row :=
  if String.eqb q tag_query then map tag_row ordered_tags
  else if String.eqb q identity_query then map identity_row ordered_identities
  else if String.eqb q discussion_query then map discussion_row ordered_discussions
  else if String.eqb q post_query then map post_row ordered_posts
  else [].

(** * Proofs *)

(** ** Strings *)

Lemma append_nil_r (s : string) : s ++ EmptyString = s.
Proof. induction s as [|c s IH]; simpl; [reflexivity | now rewrite IH]. Qed.

Lemma append_assoc (a b c : string) : (a ++ b) ++ c = a ++ (b ++ c).
Proof. induction a as [|x a IH]; simpl; [reflexivity | now rewrite IH]. Qed.

Lemma count_app (c : ascii) (a b : string) :
  count c (a ++ b) = count c a + count c b.
Proof. induction a as [|x a IH]; simpl; [reflexivity | rewrite IH; lia]. Qed.

Lemma unlines_app (xs ys : list string) :
  unlines (xs ++ ys) = unlines xs ++ unlines ys.
Proof.
  induction xs as [|x xs IH]; simpl; [reflexivity|].
  now rewrite IH, !append_assoc.
Qed.

(** ** [replace] of a one-character string is a character substitution *)

Lemma prefix_nil (s : string) : prefix EmptyString s = true.
Proof. now destruct s. Qed.

Lemma prefix_char (c d : ascii) (s : string) :
  prefix (char c) (String d s) = Ascii.eqb d c.
Proof.
  unfold char; simpl.
  destruct (ascii_dec c d) as [->|Hne].
  - now rewrite prefix_nil, Ascii.eqb_refl.
  - symmetry; apply Ascii.eqb_neq; congruence.
Qed.

Lemma replace_char (c : ascii) (new s : string) :
  replace (char c) new s = substitute c new s.
Proof.
  unfold replace.
  induction s as [|d s IH]; [reflexivity|].
  cbn [replace_from substitute].
  rewrite prefix_char.
  destruct (Ascii.eqb d c); cbn [char length]; now rewrite IH.
Qed.

Lemma substitute_app (c : ascii) (new a b : string) :
  substitute c new (a ++ b) = substitute c new a ++ substitute c new b.
Proof.
  induction a as [|d a IH]; simpl; [reflexivity|].
  destruct (Ascii.eqb d c); simpl; now rewrite IH, ?append_assoc.
Qed.

Lemma substitute_same (c : ascii) (s : string) :
  substitute c (char c) s = s.
Proof.
  induction s as [|d s IH]; simpl; [reflexivity|].
  destruct (Ascii.eqb_spec d c) as [->|_]; simpl; now rewrite IH.
Qed.

Lemma escape_body_substitutions (val : string) :
  escape_body val = four_substitutions val.
Proof.
  unfold escape_body, four_substitutions.
  change (unescape ("\" ++ char DQUOTE)) with (char DQUOTE).
  change (unescape ("\\\" ++ char DQUOTE)) with (String BACKSLASH (char DQUOTE)).
  change (unescape "'") with (char SQUOTE).
  change (unescape "\'") with (char SQUOTE).
  change (unescape "\t") with (char TAB).
  change (unescape "\\t") with (String BACKSLASH "t").
  change (unescape "\n") with (char LF).
  change (unescape "\\n") with (String BACKSLASH "n").
  now rewrite !replace_char.
Qed.

Lemma four_substitutions_app (a b : string) :
  four_substitutions (a ++ b) = four_substitutions a ++ four_substitutions b.
Proof. unfold four_substitutions. now rewrite !substitute_app. Qed.

Lemma four_substitutions_char (c : ascii) :
  four_substitutions (char c) = escape_one c.
Proof.
  unfold four_substitutions, escape_one, char.
  cbn [substitute].
  destruct (Ascii.eqb_spec c LF) as [->|H1]; [reflexivity|].
  cbn [substitute].
  destruct (Ascii.eqb_spec c TAB) as [->|H2]; [reflexivity|].
  cbn [substitute].
  destruct (Ascii.eqb_spec c SQUOTE) as [->|H3]; [reflexivity|].
  cbn [substitute].
  destruct (Ascii.eqb_spec c DQUOTE) as [->|H4]; reflexivity.
Qed.

Lemma four_substitutions_each (s : string) :
  four_substitutions s = escape_each s.
Proof.
  induction s as [|c s IH]; [reflexivity|].
  change (String c s) with (char c ++ s).
  rewrite four_substitutions_app, four_substitutions_char, IH.
  reflexivity.
Qed.

Lemma escape_body_each (s : string) : escape_body s = escape_each s.
Proof. now rewrite escape_body_substitutions, four_substitutions_each. Qed.

Lemma escape_each_app (a b : string) :
  escape_each (a ++ b) = escape_each a ++ escape_each b.
Proof.
  induction a as [|c a IH]; simpl; [reflexivity|].
  now rewrite IH, append_assoc.
Qed.

(** ** One run of each loop body *)

Lemma tag_stmts_prints (id val : value) :
  prints (formatTag id val)
    ("MERGE (:Tag{extId='" ++ pystr id ++ "', value='" ++ pystr val ++ "'})").
Proof. intros st; split; reflexivity. Qed.

Lemma identity_stmts_prints (id email handle : value) :
  prints (formatIdentity id email handle)
    ("MERGE (:Identity:User{extId='" ++ pystr id ++ "', email='"
       ++ pystr email ++ "', handle='" ++ pystr handle ++ "'})").
Proof. intros st; split; reflexivity. Qed.

Lemma discussion_stmts_prints (id tagId userId createdAt : value)
    (title header : string) :
  prints (formatDiscussionPost id (VStr title) (VStr header) tagId userId createdAt)
    ("MERGE (:Identity:User{extId='" ++ pystr userId
       ++ "'})-[posted{created_at:'" ++ pystr createdAt
       ++ "'}]->(:Post{extId='" ++ pystr id ++ "', value='"
       ++ escape_body (title ++ char LF ++ char LF ++ header)
       ++ "'})-[is_tagged_with]->(:Tag{extId: '" ++ pystr tagId ++ "'})").
Proof.
  replace (title ++ char LF ++ char LF ++ header)
    with ((title ++ String LF (char LF)) ++ header)
    by now rewrite append_assoc.
  intros st; split; reflexivity.
Qed.

Lemma post_stmts_prints (id userId createdAt inReplyToId : value)
    (text : string) :
  prints (formatPost id (VStr text) userId createdAt inReplyToId)
    ("MERGE (:Identity:User{extId='" ++ pystr userId
       ++ "'})-[posted{created_at:'" ++ pystr createdAt
       ++ "'}]->(:Post{extId='" ++ pystr id ++ "', inReplyToExtId='"
       ++ pystr inReplyToId ++ "', value='" ++ escape_body text ++ "'})").
Proof. intros st; split; reflexivity. Qed.

(** ** Sequencing and loops *)

Lemma prints_text_ret : prints_text (ret tt) EmptyString.
Proof. intros st; split; [reflexivity | simpl; now rewrite append_nil_r]. Qed.

Lemma prints_text_bind (m1 m2 : M unit) (t1 t2 : string) :
  prints_text m1 t1 -> prints_text m2 t2 ->
  prints_text (m1 ;; m2) (t1 ++ t2).
Proof.
  intros H1 H2 st.
  destruct (H1 st) as [Hr1 Ho1].
  unfold bind.
  destruct (m1 st) as [[e|[]] st1]; simpl in Hr1, Ho1; [discriminate|].
  destruct (H2 st1) as [Hr2 Ho2].
  split; [exact Hr2|].
  now rewrite Ho2, Ho1, append_assoc.
Qed.

(** A loop over rows that each print one line prints these lines in the
    order of the rows. *)
Lemma for_each_prints {A : Type} (body : row -> M unit)
    (row_of : A -> row) (line_of : A -> string) :
  (forall a, prints (body (row_of a)) (line_of a)) ->
  forall l, prints_text (for_each (map row_of l) body) (unlines (map line_of l)).
Proof.
  intros Hbody l.
  induction l as [|a l IH]; simpl.
  - apply prints_text_ret.
  - apply prints_text_bind; [apply Hbody | exact IH].
Qed.

(** A row that raises ends the loop: the lines of the rows before it are
    on the output, nothing of the rows after it. *)
Lemma raises_bind (m1 m2 : M unit) (e : exc) :
  raises m1 e -> aborts_after (m1 ;; m2) e EmptyString.
Proof.
  intros H st. destruct (H st) as [He Ho].
  unfold bind.
  destruct (m1 st) as [[e'|[]] st1]; simpl in He, Ho; [|discriminate].
  simpl; split; [exact He | now rewrite append_nil_r].
Qed.

Lemma aborts_after_bind (m1 m2 : M unit) (e : exc) (t1 t2 : string) :
  prints_text m1 t1 -> aborts_after m2 e t2 ->
  aborts_after (m1 ;; m2) e (t1 ++ t2).
Proof.
  intros H1 H2 st.
  destruct (H1 st) as [Hr1 Ho1].
  unfold bind.
  destruct (m1 st) as [[e'|[]] st1]; simpl in Hr1, Ho1; [discriminate|].
  destruct (H2 st1) as [Hr2 Ho2].
  split; [exact Hr2|].
  now rewrite Ho2, Ho1, append_assoc.
Qed.

Lemma for_each_aborts {A : Type} (body : row -> M unit)
    (row_of : A -> row) (line_of : A -> string)
    (r : row) (e : exc) (after : list row) :
  (forall a, prints (body (row_of a)) (line_of a)) ->
  raises (body r) e ->
  forall l,
    aborts_after (for_each (map row_of l ++ r :: after) body) e
      (unlines (map line_of l)).
Proof.
  intros Hbody Hr l.
  induction l as [|a l IH]; simpl.
  - now apply raises_bind.
  - apply aborts_after_bind; [apply Hbody | exact IH].
Qed.

(** ** The escaping contract *)

(** On a text the chain of [escaped] returns [escape_body] of it and
    leaves the state as it was. *)
Lemma escaped_str (s : string) (st : state) :
  escaped (ret (VStr s)) st = (inr (VStr (escape_body s)), st).
Proof. reflexivity. Qed.

(** [None] and an [int] have no [replace]. *)
Lemma escaped_none_int (z : Z) (st : state) :
  escaped (ret VNone) st = (inl AttributeError, st)
  /\ escaped (ret (VInt z)) st = (inl AttributeError, st).
Proof. split; reflexivity. Qed.

(** C1: for every discussion body and every post body, the value the
    statement carries is the body after the four global literal
    substitutions, in the order newline, tab, single quote, double quote,
    and nothing else is done to it: this is what the escaping chain returns
    for a text, and what both loops print between [value='] and the closing
    quote. *)
Theorem body_escaping_is_four_substitutions :
  forall (id tagId userId createdAt inReplyToId : value)
         (title header text : string),
    (forall st,
       escaped (ret (VStr text)) st = (inr (VStr (four_substitutions text)), st))
    /\ prints
         (formatDiscussionPost id (VStr title) (VStr header) tagId userId createdAt)
         ("MERGE (:Identity:User{extId='" ++ pystr userId
            ++ "'})-[posted{created_at:'" ++ pystr createdAt
            ++ "'}]->(:Post{extId='" ++ pystr id ++ "', value='"
            ++ four_substitutions (title ++ char LF ++ char LF ++ header)
            ++ "'})-[is_tagged_with]->(:Tag{extId: '" ++ pystr tagId ++ "'})")
    /\ prints
         (formatPost id (VStr text) userId createdAt inReplyToId)
         ("MERGE (:Identity:User{extId='" ++ pystr userId
            ++ "'})-[posted{created_at:'" ++ pystr createdAt
            ++ "'}]->(:Post{extId='" ++ pystr id ++ "', inReplyToExtId='"
            ++ pystr inReplyToId ++ "', value='"
            ++ four_substitutions text ++ "'})").
Proof.
  intros.
  rewrite <- !escape_body_substitutions.
  split; [intros st; apply escaped_str|].
  split; [apply discussion_stmts_prints | apply post_stmts_prints].
Qed.

Lemma count_escape_one_backslash (c : ascii) :
  count BACKSLASH (escape_one c)
  = count BACKSLASH (char c) + count LF (char c) + count TAB (char c)
    + count DQUOTE (char c).
Proof.
  unfold escape_one.
  destruct (Ascii.eqb_spec c LF) as [->|H1]; [reflexivity|].
  destruct (Ascii.eqb_spec c TAB) as [->|H2]; [reflexivity|].
  destruct (Ascii.eqb_spec c DQUOTE) as [->|H3]; [reflexivity|].
  unfold char; cbn [count].
  destruct (Ascii.eqb_spec LF c); [congruence|].
  destruct (Ascii.eqb_spec TAB c); [congruence|].
  destruct (Ascii.eqb_spec DQUOTE c); [congruence|].
  lia.
Qed.

Lemma count_escape_each_backslash (s : string) :
  count BACKSLASH (escape_each s)
  = count BACKSLASH s + count LF s + count TAB s + count DQUOTE s.
Proof.
  induction s as [|c s IH]; [reflexivity|].
  cbn [escape_each].
  rewrite count_app, count_escape_one_backslash, IH.
  unfold char; cbn [count]. lia.
Qed.

Lemma count_escape_each_squote (s : string) :
  count SQUOTE (escape_each s) = count SQUOTE s.
Proof.
  induction s as [|c s IH]; [reflexivity|].
  cbn [escape_each count]. rewrite count_app, IH. f_equal.
  unfold escape_one.
  destruct (Ascii.eqb_spec c LF) as [->|H1]; [reflexivity|].
  destruct (Ascii.eqb_spec c TAB) as [->|H2]; [reflexivity|].
  destruct (Ascii.eqb_spec c DQUOTE) as [->|H3]; [reflexivity|].
  unfold char; cbn [count]. lia.
Qed.

(** C2: the third step of the chain changes nothing.  The script's new
    string for it, written backslash-quote in the source, is the single
    quote alone, so replacing by it returns the text as it was.  A single
    quote of the body is written as that one character right after the
    escaped text before it, in the escaped value and in the printed
    statement; the escaped body has as many single quotes as the body, and
    its backslashes are those of the body plus one for each newline, tab
    and double quote, none for a single quote. *)
Theorem single_quote_step_is_noop :
  forall (before after s : string) (id userId createdAt inReplyToId : value),
    unescape "\'" = char SQUOTE
    /\ replace (unescape "'") (unescape "\'") s = s
    /\ escape_body (before ++ char SQUOTE ++ after)
       = escape_body before ++ char SQUOTE ++ escape_body after
    /\ count BACKSLASH (escape_body s)
       = count BACKSLASH s + count LF s + count TAB s + count DQUOTE s
    /\ count SQUOTE (escape_body s) = count SQUOTE s
    /\ prints
         (formatPost id (VStr (before ++ char SQUOTE ++ after)) userId
            createdAt inReplyToId)
         ("MERGE (:Identity:User{extId='" ++ pystr userId
            ++ "'})-[posted{created_at:'" ++ pystr createdAt
            ++ "'}]->(:Post{extId='" ++ pystr id ++ "', inReplyToExtId='"
            ++ pystr inReplyToId ++ "', value='"
            ++ (escape_body before ++ char SQUOTE ++ escape_body after)
            ++ "'})").
Proof.
  intros before after s id userId createdAt inReplyToId.
  split; [reflexivity|].
  split.
  { change (unescape "'") with (char SQUOTE).
    change (unescape "\'") with (char SQUOTE).
    now rewrite replace_char, substitute_same. }
  assert (Hq : escape_body (before ++ char SQUOTE ++ after)
               = escape_body before ++ char SQUOTE ++ escape_body after)
    by now rewrite !escape_body_each, !escape_each_app.
  split; [exact Hq|].
  split; [rewrite escape_body_each; apply count_escape_each_backslash|].
  split; [rewrite escape_body_each; apply count_escape_each_squote|].
  rewrite <- Hq. apply post_stmts_prints.
Qed.

(** ** The statements *)

(** C3: for every discussion row the loop prints exactly the line
    MERGE (:Identity:User{extId='<userId>'})-[posted{created_at:'<createdAt>'}]->(:Post{extId='<id>', value='<body>'})-[is_tagged_with]->(:Tag{extId: '<tagId>'}),
    the body being the escaped title-and-header text; the Tag node's
    extId is followed by a colon and a space where the other properties
    have an equals sign. *)
Theorem discussion_statement_format :
  forall (id tagId userId createdAt : value) (title header : string),
    prints
      (formatDiscussionPost id (VStr title) (VStr header) tagId userId createdAt)
      ("MERGE (:Identity:User{extId='" ++ pystr userId
         ++ "'})-[posted{created_at:'" ++ pystr createdAt
         ++ "'}]->(:Post{extId='" ++ pystr id ++ "', value='"
         ++ escape_body (title ++ char LF ++ char LF ++ header)
         ++ "'})-[is_tagged_with]->(:Tag{extId: '" ++ pystr tagId ++ "'})")
    /\ prints
         (formatDiscussionPost (VInt 12) (VStr "T") (VStr "H") (VInt 4) (VInt 3)
            (VStr "2024-01-01"))
         "MERGE (:Identity:User{extId='3'})-[posted{created_at:'2024-01-01'}]->(:Post{extId='12', value='T\n\nH'})-[is_tagged_with]->(:Tag{extId: '4'})".
Proof.
  intros. split.
  - apply discussion_stmts_prints.
  - intros st; split; reflexivity.
Qed.

(** C4: formatPost(101, "line1<newline>line2", 3, "2024-01-01", 55)
    prints exactly
    MERGE (:Identity:User{extId='3'})-[posted{created_at:'2024-01-01'}]->(:Post{extId='101', inReplyToExtId='55', value='line1\nline2'}),
    the newline of the body being the two characters backslash and n. *)
Theorem post_example_line :
  prints
    (formatPost (VInt 101) (VStr ("line1" ++ char LF ++ "line2")) (VInt 3)
       (VStr "2024-01-01") (VInt 55))
    "MERGE (:Identity:User{extId='3'})-[posted{created_at:'2024-01-01'}]->(:Post{extId='101', inReplyToExtId='55', value='line1\nline2'})"
  /\ "line1\nline2" = "line1" ++ String BACKSLASH "nline2".
Proof. split; [intros st; split; reflexivity | reflexivity]. Qed.

(** C5: for every discussion row the text handed to the escaping chain is
    the title, two newline characters and the header: it is the value of
    [val] after the assignments that precede the chain, none of which
    prints or escapes anything; for title T and header H it is T, newline,
    newline, H. *)
Theorem discussion_body_composition :
  forall (id tagId userId createdAt : value) (title header : string) (st : state),
    let row := [id; VStr title; VStr header; tagId; userId; createdAt] in
    let st' := snd (discussion_fields row st) in
    fst (discussion_fields row st) = inr tt
    /\ stdout st' = stdout st
    /\ fst (var "val" st') = inr (VStr (title ++ char LF ++ char LF ++ header))
    /\ fst (escaped (var "val") st')
       = inr (VStr (escape_body (title ++ char LF ++ char LF ++ header)))
    /\ "T" ++ char LF ++ char LF ++ "H" = String "T" (String LF (String LF "H")).
Proof.
  intros id tagId userId createdAt title header st row st'.
  subst row st'.
  replace (title ++ char LF ++ char LF ++ header)
    with ((title ++ String LF (char LF)) ++ header)
    by now rewrite append_assoc.
  repeat split; reflexivity.
Qed.

(** C6: for every tag row and every identity row the line carries the
    field values as they are between single quotes, text fields character
    for character whatever they contain; formatTag(7, "General") prints
    MERGE (:Tag{extId='7', value='General'}) and
    formatIdentity(3, "a@b.com", "alice") prints
    MERGE (:Identity:User{extId='3', email='a@b.com', handle='alice'}). *)
Theorem tag_identity_values_verbatim :
  forall (id val email handle : value) (sid sval semail shandle : string),
    prints (formatTag id val)
      ("MERGE (:Tag{extId='" ++ pystr id ++ "', value='" ++ pystr val ++ "'})")
    /\ prints (formatIdentity id email handle)
         ("MERGE (:Identity:User{extId='" ++ pystr id ++ "', email='"
            ++ pystr email ++ "', handle='" ++ pystr handle ++ "'})")
    /\ prints (formatTag (VStr sid) (VStr sval))
         ("MERGE (:Tag{extId='" ++ sid ++ "', value='" ++ sval ++ "'})")
    /\ prints (formatIdentity (VStr sid) (VStr semail) (VStr shandle))
         ("MERGE (:Identity:User{extId='" ++ sid ++ "', email='" ++ semail
            ++ "', handle='" ++ shandle ++ "'})")
    /\ prints (formatTag (VInt 7) (VStr "General"))
         "MERGE (:Tag{extId='7', value='General'})"
    /\ prints (formatIdentity (VInt 3) (VStr "a@b.com") (VStr "alice"))
         "MERGE (:Identity:User{extId='3', email='a@b.com', handle='alice'})".
Proof.
  intros.
  split; [apply tag_stmts_prints|].
  split; [apply identity_stmts_prints|].
  split; [apply (tag_stmts_prints (VStr sid) (VStr sval))|].
  split; [apply (identity_stmts_prints (VStr sid) (VStr semail) (VStr shandle))|].
  split; intros st; split; reflexivity.
Qed.

(** ** The whole run *)

Lemma tag_row_prints (t : TagRecord) :
  prints (tag_stmts (tag_row t)) (tag_line t).
Proof. apply tag_stmts_prints. Qed.

Lemma identity_row_prints (i : IdentityRecord) :
  prints (identity_stmts (identity_row i)) (identity_line i).
Proof. apply identity_stmts_prints. Qed.

Lemma discussion_row_prints (d : DiscussionRecord) :
  prints (discussion_stmts (discussion_row d)) (discussion_line d).
Proof.
  unfold discussion_line. rewrite <- escape_body_substitutions.
  apply discussion_stmts_prints.
Qed.

Lemma post_row_prints (p : PostRecord) :
  prints (post_stmts (post_row p)) (post_line p).
Proof.
  unfold post_line. rewrite <- escape_body_substitutions.
  apply post_stmts_prints.
Qed.

(** The discussion loop stops at a row without a title: the statements of
    the rows before it are printed, the exception ends the run. *)
Lemma discussion_loop_stops_at_null_title (before : list DiscussionRecord)
    (after : list row) (id header tagId userId createdAt : value) :
  aborts_after
    (for_each
       (map discussion_row before
          ++ [id; VNone; header; tagId; userId; createdAt] :: after)
       discussion_stmts)
    TypeError (unlines (map discussion_line before)).
Proof.
  apply for_each_aborts; [apply discussion_row_prints|].
  intros st; split; reflexivity.
Qed.

(** C7, as stated, fails: a delivered row whose body is null raises and
    ends the run.  Of the six rows of [textless_db] (a tag, an identity, a
    discussion and three posts, the second post without text) four
    statements are written; the run ends with AttributeError, and neither
    the post without text nor the well-formed post delivered after it has
    a statement. *)
Lemma null_body_row_skips_later_rows :
  List.length (textless_db tag_query) + List.length (textless_db identity_query)
  + List.length (textless_db discussion_query)
  + List.length (textless_db post_query) = 6
  /\ nth_error (textless_db post_query) 2 = Some (post_row (mkPost (VInt 101)
        ("it's" ++ char LF ++ char TAB ++ char DQUOTE ++ "ok" ++ char DQUOTE)
        (VInt 3) (VStr "2024-01-02") (VInt 12)))
  /\ aborts_after (script textless_db) AttributeError
       (unlines
          ["MERGE (:Tag{extId='7', value='General'})";
           "MERGE (:Identity:User{extId='3', email='a@b.com', handle='alice'})";
           "MERGE (:Identity:User{extId='3'})-[posted{created_at:'2024-01-01'}]->(:Post{extId='12', value='T\n\nH'})-[is_tagged_with]->(:Tag{extId: '7'})";
           "MERGE (:Identity:User{extId='3'})-[posted{created_at:'2024-01-02'}]->(:Post{extId='101', inReplyToExtId='12', value='"
             ++ "it's\n\t\" ++ char DQUOTE ++ "ok\" ++ char DQUOTE ++ "'})"])
  /\ ~ (exists statements : list string,
          List.length statements = 6
          /\ prints_text (script textless_db) (unlines statements)).
Proof.
  split; [reflexivity|]. split; [reflexivity|]. split.
  - assert (H : aborts_after
                  (for_each (map tag_row sample_tags) tag_stmts ;;
                   for_each (map identity_row sample_identities) identity_stmts ;;
                   for_each (map discussion_row sample_discussions)
                     discussion_stmts ;;
                   for_each
                     (map post_row sample_posts
                        ++ textless_row :: map post_row sample_posts)%list
                     post_stmts)
                  AttributeError
                  (unlines (map tag_line sample_tags)
                     ++ unlines (map identity_line sample_identities)
                     ++ unlines (map discussion_line sample_discussions)
                     ++ unlines (map post_line sample_posts))).
    { apply aborts_after_bind; [apply for_each_prints, tag_row_prints|].
      apply aborts_after_bind; [apply for_each_prints, identity_row_prints|].
      apply aborts_after_bind; [apply for_each_prints, discussion_row_prints|].
      apply for_each_aborts; [apply post_row_prints|].
      intros st; split; reflexivity. }
    exact H.
  - intros (statements & _ & H). destruct (H initial) as [Hr _].
    vm_compute in Hr. discriminate Hr.
Qed.

(** C7, amended: when the title and header of every discussion row and the
    text of every post row are text, the run prints exactly one statement
    for each row, the rows of each query in the order the database
    delivered them and the four queries in the order tags, identities,
    discussions, posts: nothing is reordered, grouped, left out or printed
    twice. *)
Theorem script_emits_rows_in_order :
  forall (db : string -> list row)
         (tags : list TagRecord) (identities : list IdentityRecord)
         (discussions : list DiscussionRecord) (posts : list PostRecord),
    db tag_query = map tag_row tags ->
    db identity_query = map identity_row identities ->
    db discussion_query = map discussion_row discussions ->
    db post_query = map post_row posts ->
    let statements :=
      (map tag_line tags ++ map identity_line identities
         ++ map discussion_line discussions ++ map post_line posts)%list in
    prints_text (script db) (unlines statements)
    /\ List.length statements
       = List.length tags + List.length identities
         + List.length discussions + List.length posts.
Proof.
  intros db tags identities discussions posts Ht Hi Hd Hp statements.
  subst statements. split.
  - unfold script. rewrite Ht, Hi, Hd, Hp, !unlines_app.
    apply prints_text_bind; [apply for_each_prints, tag_row_prints|].
    apply prints_text_bind; [apply for_each_prints, identity_row_prints|].
    apply prints_text_bind; [apply for_each_prints, discussion_row_prints|].
    apply for_each_prints, post_row_prints.
  - rewrite !length_app, !length_map. lia.
Qed.

Lemma script_emits_rows_in_order_witness :
  ordered_db tag_query = map tag_row ordered_tags
  /\ ordered_db identity_query = map identity_row ordered_identities
  /\ ordered_db discussion_query = map discussion_row ordered_discussions
  /\ ordered_db post_query = map post_row ordered_posts
  /\ prints_text (script ordered_db)
       (unlines
          ["MERGE (:Tag{extId='9', value='Zeta'})";
           "MERGE (:Tag{extId='2', value='Alpha'})";
           "MERGE (:Identity:User{extId='5', email='b@c.org', handle='bob'})";
           "MERGE (:Identity:User{extId='3', email='a@b.com', handle='alice'})";
           "MERGE (:Identity:User{extId='5'})-[posted{created_at:'2024-02-01'}]->(:Post{extId='20', value='Second\n\nB'})-[is_tagged_with]->(:Tag{extId: '2'})";
           "MERGE (:Identity:User{extId='3'})-[posted{created_at:'2024-01-01'}]->(:Post{extId='12', value='First\n\nA'})-[is_tagged_with]->(:Tag{extId: '9'})";
           "MERGE (:Identity:User{extId='3'})-[posted{created_at:'2024-02-03'}]->(:Post{extId='103', inReplyToExtId='20', value='c'})";
           "MERGE (:Identity:User{extId='5'})-[posted{created_at:'2024-01-02'}]->(:Post{extId='101', inReplyToExtId='12', value='a\na'})";
           "MERGE (:Identity:User{extId='3'})-[posted{created_at:'2024-01-03'}]->(:Post{extId='102', inReplyToExtId='12', value='b'})"])
  /\ 9 = 2 + 2 + 2 + 3.
Proof.
  do 4 (split; [reflexivity|]).
  exact (script_emits_rows_in_order ordered_db ordered_tags ordered_identities
           ordered_discussions ordered_posts eq_refl eq_refl eq_refl eq_refl).
Defined.

(** ** Null fields *)

(** C8, as stated, fails: a post row whose text is None raises
    AttributeError at the escaping chain and prints no line. *)
Lemma null_post_text_raises :
  raises (formatPost (VInt 101) VNone (VInt 3) (VStr "2024-01-01") (VInt 55))
    AttributeError
  /\ ~ (exists line,
          prints
            (formatPost (VInt 101) VNone (VInt 3) (VStr "2024-01-01") (VInt 55))
            line).
Proof.
  split.
  - intros st; split; reflexivity.
  - intros [line H]. destruct (H initial) as [Hr _]. discriminate Hr.
Qed.

(** C8, amended: no operation handles an error.  In a tag or identity row,
    and in a discussion or post row whose title, header and text are
    text, a field that is None is written as the literal None in its
    position and nothing is raised; a None title or header raises
    TypeError when the body is composed and a None post text raises
    AttributeError at the escaping chain, and no line is printed for
    that row. *)
Theorem null_fields_outcome :
  forall (id val email handle header tagId userId createdAt inReplyToId : value)
         (title text : string),
    pystr VNone = "None"
    /\ prints (formatTag id val)
         ("MERGE (:Tag{extId='" ++ pystr id ++ "', value='" ++ pystr val ++ "'})")
    /\ prints (formatTag VNone VNone)
         "MERGE (:Tag{extId='None', value='None'})"
    /\ prints (formatIdentity id email handle)
         ("MERGE (:Identity:User{extId='" ++ pystr id ++ "', email='"
            ++ pystr email ++ "', handle='" ++ pystr handle ++ "'})")
    /\ prints (formatIdentity VNone VNone VNone)
         "MERGE (:Identity:User{extId='None', email='None', handle='None'})"
    /\ prints
         (formatDiscussionPost id (VStr title) (VStr text) tagId userId createdAt)
         ("MERGE (:Identity:User{extId='" ++ pystr userId
            ++ "'})-[posted{created_at:'" ++ pystr createdAt
            ++ "'}]->(:Post{extId='" ++ pystr id ++ "', value='"
            ++ escape_body (title ++ char LF ++ char LF ++ text)
            ++ "'})-[is_tagged_with]->(:Tag{extId: '" ++ pystr tagId ++ "'})")
    /\ prints
         (formatDiscussionPost VNone (VStr title) (VStr text) VNone VNone VNone)
         ("MERGE (:Identity:User{extId='None'})-[posted{created_at:'None'}]->(:Post{extId='None', value='"
            ++ escape_body (title ++ char LF ++ char LF ++ text)
            ++ "'})-[is_tagged_with]->(:Tag{extId: 'None'})")
    /\ prints (formatPost id (VStr text) userId createdAt inReplyToId)
         ("MERGE (:Identity:User{extId='" ++ pystr userId
            ++ "'})-[posted{created_at:'" ++ pystr createdAt
            ++ "'}]->(:Post{extId='" ++ pystr id ++ "', inReplyToExtId='"
            ++ pystr inReplyToId ++ "', value='" ++ escape_body text ++ "'})")
    /\ prints (formatPost VNone (VStr text) VNone VNone VNone)
         ("MERGE (:Identity:User{extId='None'})-[posted{created_at:'None'}]->(:Post{extId='None', inReplyToExtId='None', value='"
            ++ escape_body text ++ "'})")
    /\ raises (formatDiscussionPost id VNone header tagId userId createdAt)
         TypeError
    /\ raises (formatDiscussionPost id (VStr title) VNone tagId userId createdAt)
         TypeError
    /\ raises (formatPost id VNone userId createdAt inReplyToId) AttributeError.
Proof.
  intros.
  split; [reflexivity|].
  split; [apply tag_stmts_prints|].
  split; [apply (tag_stmts_prints VNone VNone)|].
  split; [apply identity_stmts_prints|].
  split; [apply (identity_stmts_prints VNone VNone VNone)|].
  split; [apply discussion_stmts_prints|].
  split; [apply (discussion_stmts_prints VNone VNone VNone VNone)|].
  split; [apply post_stmts_prints|].
  split; [apply (post_stmts_prints VNone VNone VNone VNone)|].
  repeat split; reflexivity.
Qed.

(** ** Line structure of the output *)

Lemma count_escape_one_free (c d : ascii) :
  count d (String BACKSLASH "n") = 0 ->
  count d (String BACKSLASH "t") = 0 ->
  count d (String BACKSLASH (char DQUOTE)) = 0 ->
  (d = LF \/ d = TAB \/ d = DQUOTE) ->
  count d (escape_one c) = 0.
Proof.
  intros Hn Ht Hq Hd. unfold escape_one.
  destruct (Ascii.eqb_spec c LF) as [->|H1]; [exact Hn|].
  destruct (Ascii.eqb_spec c TAB) as [->|H2]; [exact Ht|].
  destruct (Ascii.eqb_spec c DQUOTE) as [->|H3]; [exact Hq|].
  unfold char; cbn [count].
  destruct (Ascii.eqb_spec d c) as [<-|_]; [|reflexivity].
  destruct Hd as [?|[?|?]]; contradiction.
Qed.

Lemma escape_each_no_newline (s : string) : count LF (escape_each s) = 0.
Proof.
  induction s as [|c s IH]; [reflexivity|].
  cbn [escape_each]. rewrite count_app, IH.
  rewrite count_escape_one_free; auto.
Qed.

Lemma escape_each_no_tab (s : string) : count TAB (escape_each s) = 0.
Proof.
  induction s as [|c s IH]; [reflexivity|].
  cbn [escape_each]. rewrite count_app, IH.
  rewrite count_escape_one_free; auto.
Qed.

(** C9: the escaped body has no newline and no tab character, whatever the
    body; so a discussion or post statement whose identifiers and
    timestamp are written without a newline is one line of output,
    however many line breaks and tabs its body has. *)
Theorem escaped_statement_is_one_line :
  (forall body : string,
     count LF (escape_body body) = 0 /\ count TAB (escape_body body) = 0)
  /\ (forall (id tagId userId createdAt : value) (title header : string),
        count LF (pystr id) = 0 -> count LF (pystr tagId) = 0 ->
        count LF (pystr userId) = 0 -> count LF (pystr createdAt) = 0 ->
        exists line,
          prints
            (formatDiscussionPost id (VStr title) (VStr header) tagId userId
               createdAt) line
          /\ count LF line = 0 /\ count LF (line ++ char LF) = 1)
  /\ (forall (id userId createdAt inReplyToId : value) (text : string),
        count LF (pystr id) = 0 -> count LF (pystr userId) = 0 ->
        count LF (pystr createdAt) = 0 -> count LF (pystr inReplyToId) = 0 ->
        exists line,
          prints (formatPost id (VStr text) userId createdAt inReplyToId) line
          /\ count LF line = 0 /\ count LF (line ++ char LF) = 1).
Proof.
  split; [|split].
  - intros body. rewrite escape_body_each.
    split; [apply escape_each_no_newline | apply escape_each_no_tab].
  - intros id tagId userId createdAt title header Hi Ht Hu Hc.
    eexists. split; [apply discussion_stmts_prints|].
    rewrite !count_app, Hi, Ht, Hu, Hc, escape_body_each,
      escape_each_no_newline.
    split; reflexivity.
  - intros id userId createdAt inReplyToId text Hi Hu Hc Hr.
    eexists. split; [apply post_stmts_prints|].
    rewrite !count_app, Hi, Hu, Hc, Hr, escape_body_each,
      escape_each_no_newline.
    split; reflexivity.
Qed.

Lemma escaped_statement_is_one_line_witness :
  count LF (pystr (VInt 101)) = 0
  /\ count LF (pystr (VInt 3)) = 0
  /\ count LF (pystr (VStr "2024-01-01")) = 0
  /\ count LF (pystr (VInt 55)) = 0
  /\ exists line,
       prints
         (formatPost (VInt 101) (VStr ("line1" ++ char LF ++ "line2")) (VInt 3)
            (VStr "2024-01-01") (VInt 55)) line
       /\ count LF line = 0 /\ count LF (line ++ char LF) = 1.
Proof.
  repeat (split; [reflexivity|]).
  exact (proj2 (proj2 escaped_statement_is_one_line)
           (VInt 101) (VInt 3) (VStr "2024-01-01") (VInt 55)
           ("line1" ++ char LF ++ "line2")
           eq_refl eq_refl eq_refl eq_refl).
Defined.

(** ** The escaping is not injective *)

(** C10: a backslash of the body is written as it is, so the body that is
    one newline character and the body that is the two characters
    backslash and n are different texts with the same escaped value, and
    posts that differ only by them print the same statement: the escaping
    is not injective and the body cannot be read back from the output. *)
Theorem escaping_not_injective :
  escape_body (char BACKSLASH) = char BACKSLASH
  /\ char LF <> String BACKSLASH "n"
  /\ escape_body (char LF) = String BACKSLASH "n"
  /\ escape_body (String BACKSLASH "n") = String BACKSLASH "n"
  /\ (exists a b : string, a <> b /\ escape_body a = escape_body b)
  /\ (forall id userId createdAt inReplyToId : value,
        exists line,
          prints (formatPost id (VStr (char LF)) userId createdAt inReplyToId)
            line
          /\ prints
               (formatPost id (VStr (String BACKSLASH "n")) userId createdAt
                  inReplyToId) line).
Proof.
  split; [reflexivity|].
  split; [discriminate|].
  split; [reflexivity|].
  split; [reflexivity|].
  split.
  - exists (char LF), (String BACKSLASH "n").
    split; [discriminate | reflexivity].
  - intros id userId createdAt inReplyToId.
    eexists. split; [apply post_stmts_prints|].
    intros st; split; reflexivity.
Qed.

(** * Further properties of the script *)

(** ** The escaping chain as a function on texts *)

Lemma length_app (a b : string) : length (a ++ b) = length a + length b.
Proof. induction a as [|c a IH]; simpl; [reflexivity | now rewrite IH]. Qed.

(** X1: escaping distributes over concatenation: the escaped value of a
    text made of two parts is the escaped first part followed by the
    escaped second part, and the empty text stays empty. *)
Theorem escape_body_concatenation :
  forall a b : string,
    escape_body (a ++ b) = escape_body a ++ escape_body b
    /\ escape_body EmptyString = EmptyString.
Proof.
  intros a b. split; [|reflexivity].
  now rewrite !escape_body_each, escape_each_app.
Qed.

(** X2: in a discussion statement the value is the escaped title, then the
    four characters backslash, n, backslash, n, then the escaped header:
    the blank line the script puts between title and header is written in
    its escaped form and title and header are escaped independently. *)
Theorem discussion_value_title_header :
  forall (id tagId userId createdAt : value) (title header : string),
    prints
      (formatDiscussionPost id (VStr title) (VStr header) tagId userId createdAt)
      ("MERGE (:Identity:User{extId='" ++ pystr userId
         ++ "'})-[posted{created_at:'" ++ pystr createdAt
         ++ "'}]->(:Post{extId='" ++ pystr id ++ "', value='"
         ++ (escape_body title ++ "\n\n" ++ escape_body header)
         ++ "'})-[is_tagged_with]->(:Tag{extId: '" ++ pystr tagId ++ "'})").
Proof.
  intros.
  replace (escape_body title ++ "\n\n" ++ escape_body header)
    with (escape_body (title ++ char LF ++ char LF ++ header)).
  - apply discussion_stmts_prints.
  - now rewrite !escape_body_each, !escape_each_app.
Qed.

Lemma length_escape_one (c : ascii) :
  length (escape_one c)
  = 1 + count LF (char c) + count TAB (char c) + count DQUOTE (char c).
Proof.
  unfold escape_one.
  destruct (Ascii.eqb_spec c LF) as [->|H1]; [reflexivity|].
  destruct (Ascii.eqb_spec c TAB) as [->|H2]; [reflexivity|].
  destruct (Ascii.eqb_spec c DQUOTE) as [->|H3]; [reflexivity|].
  unfold char; cbn [count length].
  destruct (Ascii.eqb_spec LF c); [congruence|].
  destruct (Ascii.eqb_spec TAB c); [congruence|].
  destruct (Ascii.eqb_spec DQUOTE c); [congruence|].
  reflexivity.
Qed.

Lemma length_escape_each (s : string) :
  length (escape_each s)
  = length s + count LF s + count TAB s + count DQUOTE s.
Proof.
  induction s as [|c s IH]; [reflexivity|].
  cbn [escape_each]. rewrite length_app, length_escape_one, IH.
  unfold char; cbn [count length]. lia.
Qed.

(** X3: the escaped body is longer than the body by one character for each
    newline, tab and double quote of the body, and by nothing else. *)
Theorem escape_body_length :
  forall body : string,
    length (escape_body body)
    = length body + count LF body + count TAB body + count DQUOTE body.
Proof. intros body. rewrite escape_body_each. apply length_escape_each. Qed.

Lemma escape_each_plain (s : string) :
  count LF s = 0 -> count TAB s = 0 -> count DQUOTE s = 0 ->
  escape_each s = s.
Proof.
  induction s as [|c s IH]; [reflexivity|].
  cbn [count escape_each]. intros Hn Ht Hq.
  unfold escape_one.
  destruct (Ascii.eqb_spec c LF) as [->|_]; [discriminate Hn|].
  destruct (Ascii.eqb_spec c TAB) as [->|_]; [discriminate Ht|].
  destruct (Ascii.eqb_spec c DQUOTE) as [->|_]; [discriminate Hq|].
  simpl. f_equal. apply IH; lia.
Qed.

Lemma escape_each_fixed (s : string) :
  escape_each s = s <->
  count LF s = 0 /\ count TAB s = 0 /\ count DQUOTE s = 0.
Proof.
  split.
  - intros H. pose proof (length_escape_each s) as L.
    rewrite H in L. lia.
  - intros (Hn & Ht & Hq). now apply escape_each_plain.
Qed.

(** X4: the escaping returns a body as it is exactly when the body has no
    newline, no tab and no double quote. *)
Theorem escape_body_unchanged_iff :
  forall body : string,
    escape_body body = body <->
    count LF body = 0 /\ count TAB body = 0 /\ count DQUOTE body = 0.
Proof. intros body. rewrite escape_body_each. apply escape_each_fixed. Qed.

Lemma escape_body_unchanged_iff_witness :
  (count LF "it's a plain body" = 0
   /\ count TAB "it's a plain body" = 0
   /\ count DQUOTE "it's a plain body" = 0)
  /\ escape_body "it's a plain body" = "it's a plain body".
Proof.
  assert (H : count LF "it's a plain body" = 0
              /\ count TAB "it's a plain body" = 0
              /\ count DQUOTE "it's a plain body" = 0)
    by (repeat split; reflexivity).
  split; [exact H|].
  exact (proj2 (escape_body_unchanged_iff "it's a plain body") H).
Defined.

Lemma count_escape_each_dquote (s : string) :
  count DQUOTE (escape_each s) = count DQUOTE s.
Proof.
  induction s as [|c s IH]; [reflexivity|].
  cbn [escape_each count]. rewrite count_app, IH. f_equal.
  unfold escape_one.
  destruct (Ascii.eqb_spec c LF) as [->|H1]; [reflexivity|].
  destruct (Ascii.eqb_spec c TAB) as [->|H2]; [reflexivity|].
  destruct (Ascii.eqb_spec c DQUOTE) as [->|H3]; [reflexivity|].
  unfold char; cbn [count]. lia.
Qed.

Lemma bare_dquotes_escape_each (s : string) (b : bool) :
  bare_dquotes b (escape_each s) = 0.
Proof.
  revert b. induction s as [|c s IH]; intros b; [reflexivity|].
  cbn [escape_each]. unfold escape_one.
  destruct (Ascii.eqb_spec c LF) as [->|H1]; [simpl; apply IH|].
  destruct (Ascii.eqb_spec c TAB) as [->|H2]; [simpl; apply IH|].
  destruct (Ascii.eqb_spec c DQUOTE) as [->|H3]; [simpl; apply IH|].
  unfold char; cbn [append bare_dquotes].
  destruct (Ascii.eqb_spec c DQUOTE); [contradiction|].
  simpl. apply IH.
Qed.

(** X5: every double quote of the escaped body comes directly after a
    backslash, and the escaped body has as many double quotes as the
    body. *)
Theorem escaped_dquotes_follow_backslash :
  forall body : string,
    bare_dquotes false (escape_body body) = 0
    /\ count DQUOTE (escape_body body) = count DQUOTE body.
Proof.
  intros body. rewrite escape_body_each.
  split; [apply bare_dquotes_escape_each | apply count_escape_each_dquote].
Qed.

(** X6: escaping an escaped body again gives the same text exactly when
    the body has no double quote: newlines and tabs are gone after the
    first pass, a double quote gets one more backslash at each pass. *)
Theorem escape_body_twice_iff :
  forall body : string,
    escape_body (escape_body body) = escape_body body <->
    count DQUOTE body = 0.
Proof.
  intros body. rewrite !escape_body_each, escape_each_fixed.
  rewrite escape_each_no_newline, escape_each_no_tab, count_escape_each_dquote.
  tauto.
Qed.

Lemma escape_body_twice_iff_witness :
  count DQUOTE ("line1" ++ char LF ++ "it's" ++ char TAB) = 0
  /\ escape_body (escape_body ("line1" ++ char LF ++ "it's" ++ char TAB))
     = escape_body ("line1" ++ char LF ++ "it's" ++ char TAB).
Proof.
  split; [reflexivity|].
  exact (proj2 (escape_body_twice_iff ("line1" ++ char LF ++ "it's" ++ char TAB))
           eq_refl).
Defined.

(** ** Every row, well formed or not *)

Lemma outcome_ret : outcome (ret tt) (inr tt) EmptyString.
Proof. intros st; split; [reflexivity | simpl; now rewrite append_nil_r]. Qed.

Lemma outcome_bind_ok (m1 m2 : M unit) (res : exc + unit) (t1 t2 : string) :
  outcome m1 (inr tt) t1 -> outcome m2 res t2 ->
  outcome (m1 ;; m2) res (t1 ++ t2).
Proof.
  intros H1 H2 st.
  destruct (H1 st) as [Hr1 Ho1].
  unfold bind.
  destruct (m1 st) as [[e|[]] st1]; simpl in Hr1, Ho1; [discriminate|].
  destruct (H2 st1) as [Hr2 Ho2].
  split; [exact Hr2|].
  now rewrite Ho2, Ho1, append_assoc.
Qed.

Lemma outcome_bind_error (m1 m2 : M unit) (e : exc) (t1 : string) :
  outcome m1 (inl e) t1 -> outcome (m1 ;; m2) (inl e) t1.
Proof.
  intros H1 st.
  destruct (H1 st) as [Hr1 Ho1].
  unfold bind.
  destruct (m1 st) as [[e'|[]] st1]; simpl in Hr1, Ho1; [|discriminate].
  split; [exact Hr1 | exact Ho1].
Qed.

Lemma outcome_raises (m : M unit) (e : exc) :
  raises m e -> outcome m (inl e) EmptyString.
Proof.
  intros H st. destruct (H st) as [Hr Ho].
  split; [exact Hr | now rewrite append_nil_r].
Qed.

(** Closes a goal [exists res text, outcome m res text /\ P res] for a
    body run on a row of known shape. *)
Ltac settle_row :=
  first
    [ exists (inr tt); eexists; split;
      [ intros st; split; reflexivity | unfold row_error; tauto ]
    | exists (inl IndexError), EmptyString; split;
      [ apply outcome_raises; intros st; split; reflexivity
      | unfold row_error; tauto ]
    | exists (inl TypeError), EmptyString; split;
      [ apply outcome_raises; intros st; split; reflexivity
      | unfold row_error; tauto ]
    | exists (inl AttributeError), EmptyString; split;
      [ apply outcome_raises; intros st; split; reflexivity
      | unfold row_error; tauto ] ].

Lemma tag_stmts_outcome (r : row) :
  exists res text,
    outcome (tag_stmts r) res text /\ (res = inr tt \/ res = inl IndexError).
Proof.
  destruct r as [|a [|b rest]]; settle_row.
Qed.

Lemma identity_stmts_outcome (r : row) :
  exists res text,
    outcome (identity_stmts r) res text
    /\ (res = inr tt \/ res = inl IndexError).
Proof.
  destruct r as [|a [|b [|c rest]]]; settle_row.
Qed.

Lemma discussion_stmts_outcome (r : row) :
  exists res text,
    outcome (discussion_stmts r) res text
    /\ (res = inr tt \/ res = inl IndexError \/ res = inl TypeError).
Proof.
  destruct r as [|a [|b [|c [|d [|e [|f rest]]]]]];
    try destruct b as [| zb | sb | tb [|]];
    try destruct c as [| zc | sc | tc [|]];
    settle_row.
Qed.

Lemma post_stmts_outcome (r : row) :
  exists res text,
    outcome (post_stmts r) res text /\ row_error res.
Proof.
  destruct r as [|a [|b [|c [|d [|e rest]]]]];
    try destruct b as [| zb | sb | tb [|]];
    settle_row.
Qed.

Lemma for_each_outcome (body : row -> M unit) (P : exc + unit -> Prop) :
  P (inr tt) ->
  (forall r, exists res text, outcome (body r) res text /\ P res) ->
  forall rows,
    exists res text, outcome (for_each rows body) res text /\ P res.
Proof.
  intros Hok Hbody rows.
  induction rows as [|r rows (res' & text' & Hrest & HP')]; simpl.
  - exists (inr tt), EmptyString. split; [apply outcome_ret | exact Hok].
  - destruct (Hbody r) as ([e|[]] & text & Hr & HP).
    + exists (inl e), text. split; [now apply outcome_bind_error | exact HP].
    + exists res', (text ++ text').
      split; [now apply outcome_bind_ok | exact HP'].
Qed.

Lemma row_error_weaken2 (res : exc + unit) :
  res = inr tt \/ res = inl IndexError -> row_error res.
Proof. unfold row_error; tauto. Qed.

Lemma row_error_weaken3 (res : exc + unit) :
  res = inr tt \/ res = inl IndexError \/ res = inl TypeError ->
  row_error res.
Proof. unfold row_error; tauto. Qed.

Lemma loop_outcome (body : row -> M unit) (rows : list row) :
  (forall r, exists res text, outcome (body r) res text /\ row_error res) ->
  exists res text, outcome (for_each rows body) res text /\ row_error res.
Proof.
  intros H. apply for_each_outcome; [unfold row_error; tauto | exact H].
Qed.

Lemma sequence_outcome (m1 m2 : M unit) :
  (exists res text, outcome m1 res text /\ row_error res) ->
  (exists res text, outcome m2 res text /\ row_error res) ->
  exists res text, outcome (m1 ;; m2) res text /\ row_error res.
Proof.
  intros ([e|[]] & t1 & H1 & P1) (res2 & t2 & H2 & P2).
  - exists (inl e), t1. split; [now apply outcome_bind_error | exact P1].
  - exists res2, (t1 ++ t2). split; [now apply outcome_bind_ok | exact P2].
Qed.

(** X7: whatever rows the database delivers, the run ends normally or with
    IndexError, TypeError or AttributeError, never with another exception
    (every variable a statement reads was assigned for the same row, every
    template is well formed); its result and the text it writes are the
    same from every state of the variables and of the output, and the text
    is added after what was already written. *)
Theorem script_outcome_depends_on_rows_only :
  forall db : string -> list row,
    exists (res : exc + unit) (text : string),
      (forall st,
         fst (script db st) = res
         /\ stdout (snd (script db st)) = stdout st ++ text)
      /\ (res = inr tt \/ res = inl IndexError \/ res = inl TypeError
          \/ res = inl AttributeError).
Proof.
  intros db. unfold script.
  apply sequence_outcome.
  { apply loop_outcome. intros r.
    destruct (tag_stmts_outcome r) as (res & text & H & P).
    exists res, text. split; [exact H | now apply row_error_weaken2]. }
  apply sequence_outcome.
  { apply loop_outcome. intros r.
    destruct (identity_stmts_outcome r) as (res & text & H & P).
    exists res, text. split; [exact H | now apply row_error_weaken2]. }
  apply sequence_outcome.
  { apply loop_outcome. intros r.
    destruct (discussion_stmts_outcome r) as (res & text & H & P).
    exists res, text. split; [exact H | now apply row_error_weaken3]. }
  apply loop_outcome, post_stmts_outcome.
Qed.

(** X8: the statements of all tags and all identities are always written,
    in order and first, whatever their field values and whatever the
    discussion and post rows are: a tag or identity row of the query's
    width cannot raise, so only a discussion or a post can end the run. *)
Theorem tags_and_identities_always_written :
  forall (db : string -> list row)
         (tags : list TagRecord) (identities : list IdentityRecord),
    db tag_query = map tag_row tags ->
    db identity_query = map identity_row identities ->
    exists (res : exc + unit) (rest : string),
      outcome (script db) res
        (unlines (map tag_line tags) ++ unlines (map identity_line identities)
           ++ rest)
      /\ (res = inr tt \/ res = inl IndexError \/ res = inl TypeError
          \/ res = inl AttributeError).
Proof.
  intros db tags identities Ht Hi. unfold script. rewrite Ht, Hi.
  assert (Hrest :
    exists res text,
      outcome
        (for_each (db discussion_query) discussion_stmts ;;
         for_each (db post_query) post_stmts) res text
      /\ row_error res).
  { apply sequence_outcome.
    - apply loop_outcome. intros r.
      destruct (discussion_stmts_outcome r) as (res & text & H & P).
      exists res, text. split; [exact H | now apply row_error_weaken3].
    - apply loop_outcome, post_stmts_outcome. }
  destruct Hrest as (res & rest & Hout & HP).
  exists res, rest. split; [|exact HP].
  apply outcome_bind_ok; [apply for_each_prints, tag_row_prints|].
  apply outcome_bind_ok; [apply for_each_prints, identity_row_prints|].
  exact Hout.
Qed.

Lemma tags_and_identities_always_written_witness :
  untitled_db tag_query = map tag_row sample_tags
  /\ untitled_db identity_query = map identity_row sample_identities
  /\ exists (res : exc + unit) (rest : string),
       outcome (script untitled_db) res
         (unlines (map tag_line sample_tags)
            ++ unlines (map identity_line sample_identities) ++ rest)
       /\ (res = inr tt \/ res = inl IndexError \/ res = inl TypeError
           \/ res = inl AttributeError).
Proof.
  split; [reflexivity|]. split; [reflexivity|].
  exact (tags_and_identities_always_written untitled_db sample_tags
           sample_identities eq_refl eq_refl).
Defined.

(** ** Where a run stops *)

Lemma discussion_without_text_raises
    (id title header tagId userId createdAt : value) :
  is_str title && is_str header = false ->
  raises (discussion_stmts [id; title; header; tagId; userId; createdAt])
    TypeError.
Proof.
  intros H.
  destruct title as [| zt | st | tt' [|]];
    destruct header as [| zh | sh | th [|]];
    try discriminate H; intros s; split; reflexivity.
Qed.

Lemma post_without_text_raises
    (id text userId createdAt inReplyToId : value) :
  is_str text = false ->
  raises (post_stmts [id; text; userId; createdAt; inReplyToId])
    (match text with
     | VOther _ true => TypeError
     | _ => AttributeError
     end).
Proof.
  intros H.
  destruct text as [| zt | st | tt' [|]];
    try discriminate H; intros s; split; reflexivity.
Qed.

(** X9: a discussion row whose title or header is not text (a null, for
    one) ends the run with TypeError.  The statements of all tags, of all
    identities and of the discussions before that row have been written;
    nothing is written for that row, for the discussions after it, or for
    any post. *)
Theorem run_stops_at_discussion_without_text :
  forall (db : string -> list row)
         (tags : list TagRecord) (identities : list IdentityRecord)
         (before : list DiscussionRecord) (after : list row)
         (id title header tagId userId createdAt : value),
    db tag_query = map tag_row tags ->
    db identity_query = map identity_row identities ->
    db discussion_query
    = (map discussion_row before
         ++ [id; title; header; tagId; userId; createdAt] :: after)%list ->
    is_str title && is_str header = false ->
    outcome (script db) (inl TypeError)
      (unlines
         (map tag_line tags ++ map identity_line identities
            ++ map discussion_line before)%list).
Proof.
  intros db tags identities before after id title header tagId userId
    createdAt Ht Hi Hd Hbad.
  unfold script. rewrite Ht, Hi, Hd, !unlines_app.
  apply outcome_bind_ok; [apply for_each_prints, tag_row_prints|].
  apply outcome_bind_ok; [apply for_each_prints, identity_row_prints|].
  apply outcome_bind_error.
  apply for_each_aborts; [apply discussion_row_prints|].
  now apply discussion_without_text_raises.
Qed.

Lemma run_stops_at_discussion_without_text_witness :
  untitled_db tag_query = map tag_row sample_tags
  /\ untitled_db identity_query = map identity_row sample_identities
  /\ untitled_db discussion_query
     = (map discussion_row sample_discussions ++ untitled_row :: [])%list
  /\ is_str VNone && is_str (VStr "H2") = false
  /\ outcome (script untitled_db) (inl TypeError)
       (unlines
          ["MERGE (:Tag{extId='7', value='General'})";
           "MERGE (:Identity:User{extId='3', email='a@b.com', handle='alice'})";
           "MERGE (:Identity:User{extId='3'})-[posted{created_at:'2024-01-01'}]->(:Post{extId='12', value='T\n\nH'})-[is_tagged_with]->(:Tag{extId: '7'})"]).
Proof.
  do 4 (split; [reflexivity|]).
  exact (run_stops_at_discussion_without_text untitled_db sample_tags
           sample_identities sample_discussions [] (VInt 13) VNone (VStr "H2")
           (VInt 7) (VInt 3) (VStr "2024-01-03")
           eq_refl eq_refl eq_refl eq_refl).
Defined.

(** X10: a post row whose text is not text ends the run, with
    AttributeError when the value has no [replace] (a null, a number) and
    with TypeError when it has one that refuses text arguments.  Every
    statement before that row has been written, nothing for that row or
    the posts after it. *)
Theorem run_stops_at_post_without_text :
  forall (db : string -> list row)
         (tags : list TagRecord) (identities : list IdentityRecord)
         (discussions : list DiscussionRecord)
         (before : list PostRecord) (after : list row)
         (id text userId createdAt inReplyToId : value),
    db tag_query = map tag_row tags ->
    db identity_query = map identity_row identities ->
    db discussion_query = map discussion_row discussions ->
    db post_query
    = (map post_row before
         ++ [id; text; userId; createdAt; inReplyToId] :: after)%list ->
    is_str text = false ->
    outcome (script db)
      (inl (match text with
            | VOther _ true => TypeError
            | _ => AttributeError
            end))
      (unlines
         (map tag_line tags ++ map identity_line identities
            ++ map discussion_line discussions ++ map post_line before)%list).
Proof.
  intros db tags identities discussions before after id text userId
    createdAt inReplyToId Ht Hi Hd Hp Hbad.
  unfold script. rewrite Ht, Hi, Hd, Hp, !unlines_app.
  apply outcome_bind_ok; [apply for_each_prints, tag_row_prints|].
  apply outcome_bind_ok; [apply for_each_prints, identity_row_prints|].
  apply outcome_bind_ok; [apply for_each_prints, discussion_row_prints|].
  apply for_each_aborts; [apply post_row_prints|].
  now apply post_without_text_raises.
Qed.

Lemma run_stops_at_post_without_text_witness :
  textless_db tag_query = map tag_row sample_tags
  /\ textless_db identity_query = map identity_row sample_identities
  /\ textless_db discussion_query = map discussion_row sample_discussions
  /\ textless_db post_query
     = (map post_row sample_posts
          ++ textless_row :: map post_row sample_posts)%list
  /\ is_str VNone = false
  /\ outcome (script textless_db) (inl AttributeError)
       (unlines
          (map tag_line sample_tags ++ map identity_line sample_identities
             ++ map discussion_line sample_discussions
             ++ map post_line sample_posts)%list).
Proof.
  do 5 (split; [reflexivity|]).
  exact (run_stops_at_post_without_text textless_db sample_tags
           sample_identities sample_discussions sample_posts
           (map post_row sample_posts) (VInt 102) VNone (VInt 3)
           (VStr "2024-01-04") (VInt 12)
           eq_refl eq_refl eq_refl eq_refl eq_refl).
Defined.

(** ** Lines of the output *)

Lemma one_line_count (v : value) :
  one_line v = true -> count LF (pystr v) = 0.
Proof. unfold one_line. apply Nat.eqb_eq. Qed.

Lemma four_substitutions_no_newline (s : string) :
  count LF (four_substitutions s) = 0.
Proof. rewrite four_substitutions_each. apply escape_each_no_newline. Qed.

Lemma tag_line_one_line (t : TagRecord) :
  tag_one_line t = true -> count LF (tag_line t) = 0.
Proof.
  unfold tag_one_line, tag_line. rewrite !andb_true_iff.
  intros (H1 & H2). apply one_line_count in H1, H2.
  rewrite !count_app, H1, H2. reflexivity.
Qed.

Lemma identity_line_one_line (i : IdentityRecord) :
  identity_one_line i = true -> count LF (identity_line i) = 0.
Proof.
  unfold identity_one_line, identity_line. rewrite !andb_true_iff.
  intros ((H1 & H2) & H3). apply one_line_count in H1, H2, H3.
  rewrite !count_app, H1, H2, H3. reflexivity.
Qed.

Lemma discussion_line_one_line (d : DiscussionRecord) :
  discussion_one_line d = true -> count LF (discussion_line d) = 0.
Proof.
  unfold discussion_one_line, discussion_line. rewrite !andb_true_iff.
  intros (((H1 & H2) & H3) & H4). apply one_line_count in H1, H2, H3, H4.
  rewrite !count_app, H1, H2, H3, H4, four_substitutions_no_newline.
  reflexivity.
Qed.

Lemma post_line_one_line (p : PostRecord) :
  post_one_line p = true -> count LF (post_line p) = 0.
Proof.
  unfold post_one_line, post_line. rewrite !andb_true_iff.
  intros (((H1 & H2) & H3) & H4). apply one_line_count in H1, H2, H3, H4.
  rewrite !count_app, H1, H2, H3, H4, four_substitutions_no_newline.
  reflexivity.
Qed.

Lemma count_unlines_map {A : Type} (line_of : A -> string) (ok : A -> bool) :
  (forall a, ok a = true -> count LF (line_of a) = 0) ->
  forall l, forallb ok l = true ->
            count LF (unlines (map line_of l)) = List.length l.
Proof.
  intros Hline l. induction l as [|a l IH]; [reflexivity|].
  cbn [forallb map unlines List.length]. rewrite andb_true_iff.
  intros (Ha & Hl).
  rewrite !count_app, (Hline a Ha), (IH Hl). reflexivity.
Qed.

(** X11: when the identifiers, timestamps and tag and identity fields are
    written without a line break, the output of a run has exactly as many
    newline characters as the database delivered rows, whatever the titles,
    headers and post texts contain: the output can be read back one
    statement per line. *)
Theorem output_has_one_newline_per_row :
  forall (db : string -> list row)
         (tags : list TagRecord) (identities : list IdentityRecord)
         (discussions : list DiscussionRecord) (posts : list PostRecord),
    db tag_query = map tag_row tags ->
    db identity_query = map identity_row identities ->
    db discussion_query = map discussion_row discussions ->
    db post_query = map post_row posts ->
    forallb tag_one_line tags = true ->
    forallb identity_one_line identities = true ->
    forallb discussion_one_line discussions = true ->
    forallb post_one_line posts = true ->
    exists text : string,
      prints_text (script db) text
      /\ count LF text
         = List.length tags + List.length identities
           + List.length discussions + List.length posts.
Proof.
  intros db tags identities discussions posts Ht Hi Hd Hp Ot Oi Od Op.
  eexists. split.
  - unfold script. rewrite Ht, Hi, Hd, Hp.
    apply prints_text_bind; [apply for_each_prints, tag_row_prints|].
    apply prints_text_bind; [apply for_each_prints, identity_row_prints|].
    apply prints_text_bind; [apply for_each_prints, discussion_row_prints|].
    apply for_each_prints, post_row_prints.
  - rewrite !count_app.
    rewrite (count_unlines_map tag_line tag_one_line tag_line_one_line _ Ot).
    rewrite (count_unlines_map identity_line identity_one_line
               identity_line_one_line _ Oi).
    rewrite (count_unlines_map discussion_line discussion_one_line
               discussion_line_one_line _ Od).
    rewrite (count_unlines_map post_line post_one_line
               post_line_one_line _ Op).
    lia.
Qed.

Lemma output_has_one_newline_per_row_witness :
  sample_db tag_query = map tag_row sample_tags
  /\ sample_db identity_query = map identity_row sample_identities
  /\ sample_db discussion_query = map discussion_row sample_discussions
  /\ sample_db post_query = map post_row sample_posts
  /\ forallb tag_one_line sample_tags = true
  /\ forallb identity_one_line sample_identities = true
  /\ forallb discussion_one_line sample_discussions = true
  /\ forallb post_one_line sample_posts = true
  /\ exists text : string,
       prints_text (script sample_db) text /\ count LF text = 1 + 1 + 1 + 1.
Proof.
  do 8 (split; [reflexivity|]).
  exact (output_has_one_newline_per_row sample_db sample_tags
           sample_identities sample_discussions sample_posts
           eq_refl eq_refl eq_refl eq_refl eq_refl eq_refl eq_refl eq_refl).
Defined.

(** ** Columns a loop reads *)

(** X12: a row with fewer columns than its loop reads raises IndexError
    and nothing is written for it; in the post loop this comes before the
    text is looked at, and in the discussion loop a row of fewer than two
    columns fails so before title and header are joined. *)
Theorem short_row_raises_index_error :
  forall r : row,
    (List.length r < 2 -> raises (tag_stmts r) IndexError)
    /\ (List.length r < 3 -> raises (identity_stmts r) IndexError)
    /\ (List.length r < 2 -> raises (discussion_stmts r) IndexError)
    /\ (List.length r < 5 -> raises (post_stmts r) IndexError).
Proof.
  intros r.
  destruct r as [|a [|b [|c [|d [|e rest]]]]]; cbn [List.length];
    (split; [|split; [|split]]); intros H; try lia;
    intros st; split; reflexivity.
Qed.

Lemma short_row_raises_index_error_witness :
  List.length [VInt 7] < 2
  /\ List.length [VInt 7] < 3
  /\ List.length [VInt 7] < 5
  /\ raises (tag_stmts [VInt 7]) IndexError
  /\ raises (identity_stmts [VInt 7]) IndexError
  /\ raises (discussion_stmts [VInt 7]) IndexError
  /\ raises (post_stmts [VInt 7]) IndexError.
Proof.
  assert (H2 : List.length [VInt 7] < 2) by (simpl; lia).
  assert (H3 : List.length [VInt 7] < 3) by (simpl; lia).
  assert (H5 : List.length [VInt 7] < 5) by (simpl; lia).
  destruct (short_row_raises_index_error [VInt 7]) as (Ht & Hi & Hd & Hp).
  split; [exact H2|]. split; [exact H3|]. split; [exact H5|].
  split; [exact (Ht H2)|]. split; [exact (Hi H3)|].
  split; [exact (Hd H2) | exact (Hp H5)].
Defined.
